(** * kubectl-mcp-server: the command gate of [server.py]

    A shallow embedding of the two command tools of [src/server.py],
    [run_kubectl_command] (lines 101-141) and [run_kubectl_command_ro]
    (lines 143-213), with the Python string operations they use
    ([str.startswith], [in], slicing, [str.split]) and the effects they have
    (a call of [subprocess.run], a [logger.error] record, an exception that
    leaves the function). The context tools [list_clusters] (lines 37-67)
    and [switch_context] (lines 69-99), with [initialize_clients] (lines
    21-32) and the module globals, follow, over the kubernetes client library
    taken as a parameter, and then the four tools called in sequence.

    A Python [str] is modelled as a [string]; its characters stand for the
    code points U+0000 .. U+00FF. *)

From Stdlib Require Import Bool List Ascii String ZArith.
Import ListNotations.

Local Open Scope list_scope.
Local Open Scope string_scope.

(** ** Python string operations *)

Module Py.

(** [s.startswith(prefix)]. *)
Fixpoint startswith (s prefix : string) {struct prefix} : bool :=
  match prefix with
  | EmptyString => true
  | String p prefix' =>
      match s with
      | EmptyString => false
      | String c s' => if Ascii.eqb c p then startswith s' prefix' else false
      end
  end.

(** [term in s]: [term] occurs in [s] as a run of consecutive characters. *)
Fixpoint contains (term s : string) : bool :=
  startswith s term ||
  match s with
  | EmptyString => false
  | String _ s' => contains term s'
  end.

(** [s[n:]] for a non-negative [n]. *)
Fixpoint slice_from (n : nat) (s : string) : string :=
  match n with
  | O => s
  | S n' =>
      match s with
      | EmptyString => EmptyString
      | String _ s' => slice_from n' s'
      end
  end.

(** [any(f(x) for x in xs)]. *)
Definition any {A : Type} (f : A -> bool) (xs : list A) : bool := existsb f xs.

(** [c.isspace()] on U+0000 .. U+00FF: the characters TAB, LF, VT, FF, CR,
    U+001C .. U+001F, SPACE, U+0085 and U+00A0. *)
Definition isspace (c : ascii) : bool :=
  let n := nat_of_ascii c in
  ((9 <=? n)%nat && (n <=? 13)%nat) || ((28 <=? n)%nat && (n <=? 32)%nat)
  || (n =? 133)%nat || (n =? 160)%nat.

(** [s.split()] with no separator: the maximal runs of characters that are
    not whitespace, in order; [tok] is the run being read. *)
Fixpoint split_from (tok s : string) : list string :=
  match s with
  | EmptyString =>
      match tok with EmptyString => [] | _ => [tok] end
  | String c s' =>
      if isspace c then
        match tok with
        | EmptyString => split_from EmptyString s'
        | _ => tok :: split_from EmptyString s'
        end
      else split_from (tok ++ String c EmptyString) s'
  end.

Definition split (s : string) : list string := split_from EmptyString s.

(** The characters of [s] that are not whitespace. *)
Fixpoint strip_spaces (s : string) : string :=
  match s with
  | EmptyString => EmptyString
  | String c s' =>
      if isspace c then strip_spaces s' else String c (strip_spaces s')
  end.

(** No character of [s] is whitespace. *)
Fixpoint no_space (s : string) : bool :=
  match s with
  | EmptyString => true
  | String c s' => negb (isspace c) && no_space s'
  end.

End Py.

(** ** Effects: the external executor, the log, exceptions *)

(** What the operating system does with a request to run [argv]: the process
    runs to completion with an exit status and its two captured streams, or
    it cannot be started at all (no such executable, no permission). *)
Inductive outcome : Type :=
| Exits (returncode : Z) (stdout stderr : string)
| FailsToLaunch (strerror : string).

(** The external collaborator: the answer of the system to each [argv]. *)
Definition executor : Type := list string -> outcome.

(** [subprocess.CompletedProcess]. *)
Record CompletedProcess : Type := mkCompleted {
  cp_args : list string;
  cp_returncode : Z;
  cp_stdout : string;
  cp_stderr : string
}.

(** The exceptions [subprocess.run(..., check=True)] raises. *)
Inductive exn : Type :=
| CalledProcessError (returncode : Z) (cmd : list string) (stdout stderr : string)
| OSError (strerror : string).

(** The observable effects of a tool call, oldest first. *)
Inductive event : Type :=
| EvSubprocess (argv : list string)   (* subprocess.run(argv, ...) was called *)
| EvLogError (msg : string).          (* logger.error(msg) *)

Definition trace : Type := list event.

(** How a Python call ends: it returns a value or an exception leaves it. *)
Inductive result (A : Type) : Type :=
| Return (a : A)
| Raise (e : exn).
Arguments Return {A} a.
Arguments Raise {A} e.

(** Computations over the trace that may raise. *)
Definition M (A : Type) : Type := trace -> result A * trace.

Definition ret {A : Type} (a : A) : M A := fun tr => (Return a, tr).

Definition bind {A B : Type} (m : M A) (k : A -> M B) : M B :=
  fun tr =>
    match m tr with
    | (Return a, tr') => k a tr'
    | (Raise e, tr') => (Raise e, tr')
    end.

Notation "x <- m ;; k" := (bind m (fun x => k))
  (at level 61, m at next level, right associativity).
Notation "m ;;; k" := (bind m (fun _ => k))
  (at level 61, right associativity).

(** [try: body  except subprocess.CalledProcessError as e: handler]: only a
    [CalledProcessError] is caught, any other exception goes on. *)
Definition try_except_CalledProcessError {A : Type}
    (body : M A) (handler : Z -> list string -> string -> string -> M A) : M A :=
  fun tr =>
    match body tr with
    | (Return a, tr') => (Return a, tr')
    | (Raise (CalledProcessError rc cmd out err), tr') => handler rc cmd out err tr'
    | (Raise (OSError msg), tr') => (Raise (OSError msg), tr')
    end.

(** [logger.error(msg)]. *)
Definition logger_error (msg : string) : M unit :=
  fun tr => (Return tt, (tr ++ [EvLogError msg])%list).

(** The argument lists of the [subprocess.run] calls of a trace. *)
Fixpoint spawned (tr : trace) : list (list string) :=
  match tr with
  | [] => []
  | EvSubprocess argv :: tr' => argv :: spawned tr'
  | EvLogError _ :: tr' => spawned tr'
  end.

(** ** The tools of [server.py] *)

Section Server.

Variable os : executor.

(** [subprocess.run(argv, capture_output=True, text=True, check=True)]:
    with [check=True] a non-zero exit status raises [CalledProcessError];
    a process that cannot be started raises [OSError]. *)
Definition subprocess_run (argv : list string) : M CompletedProcess :=
  fun tr =>
    let tr' := (tr ++ [EvSubprocess argv])%list in
    match os argv with
    | Exits rc out err =>
        if (rc =? 0)%Z then (Return (mkCompleted argv rc out err), tr')
        else (Raise (CalledProcessError rc argv out err), tr')
    | FailsToLaunch msg => (Raise (OSError msg), tr')
    end.

(** Lines 181 and 129. *)
Definition MSG_PREFIX : string := "Error: Command must start with 'kubectl'".

(** Line 201. *)
Definition MSG_READ_ONLY : string :=
  "Error: Only read-only kubectl commands are allowed (get, describe, etc.)".

(** Lines 139-141, the handler shared by the two tools. *)
Definition on_CalledProcessError
    (rc : Z) (cmd : list string) (out err : string) : M string :=
  logger_error ("Error running kubectl command: " ++ err) ;;;
  ret ("Error: " ++ err).

(** Lines 126-141. *)
Definition run_kubectl_command (command : string) : M string :=
  try_except_CalledProcessError
    (if negb (Py.startswith command "kubectl ") then ret MSG_PREFIX
     else
       result <- subprocess_run (Py.split command) ;;
       ret (cp_stdout result))
    on_CalledProcessError.

(** Lines 187-189. *)
Definition allowed_prefixes : list string :=
  ["get"; "describe"; "explain";
   "config view"; "config get-contexts";
   "version"; "api-resources"; "cluster-info"].

(** Lines 192-194. *)
Definition disallowed_terms : list string :=
  ["delete"; "update"; "patch"; "apply"; "create";
   "replace"; "edit"; "scale"; "cordon"; "drain";
   "taint"; "label --overwrite"; "annotate --overwrite"].

(** Line 197. *)
Definition is_allowed (kubectl_subcommand : string) : bool :=
  Py.any (fun prefix => Py.startswith kubectl_subcommand prefix) allowed_prefixes.

(** Line 198. *)
Definition has_disallowed (kubectl_subcommand : string) : bool :=
  Py.any (fun term => Py.contains term kubectl_subcommand) disallowed_terms.

(** Lines 178-213. *)
Definition run_kubectl_command_ro (command : string) : M string :=
  try_except_CalledProcessError
    (if negb (Py.startswith command "kubectl ") then ret MSG_PREFIX
     else
       let kubectl_subcommand := Py.slice_from 8 command in
       if negb (is_allowed kubectl_subcommand) || has_disallowed kubectl_subcommand
       then ret MSG_READ_ONLY
       else
         result <- subprocess_run (Py.split command) ;;
         ret (cp_stdout result))
    on_CalledProcessError.

End Server.

(** ** The gate of the read-only tool, read as a classifier *)

(** The verdict of the specification's classifier. *)
Inductive Verdict : Type :=
| Allowed
| Denied (reason : string).

(** The tests of lines 180-201 of [run_kubectl_command_ro], which the tool
    has inline, with the string each one returns as the reason
    ([run_kubectl_command_ro_gate] below relates the tool to them). *)
Definition classify (command : string) : Verdict :=
  if negb (Py.startswith command "kubectl ") then Denied MSG_PREFIX
  else
    let kubectl_subcommand := Py.slice_from 8 command in
    if negb (is_allowed kubectl_subcommand) || has_disallowed kubectl_subcommand
    then Denied MSG_READ_ONLY
    else Allowed.

(** What the tools do with a command they let through (lines 132-141 and
    204-213): the call of the executor and the [except] clause around it. *)
Definition forward (os : executor) (command : string) : M string :=
  try_except_CalledProcessError
    (result <- subprocess_run os (Py.split command) ;; ret (cp_stdout result))
    on_CalledProcessError.

(** The three tests a command can fail under the read-only tool. *)
Inductive check : Type :=
| PrefixCheck       (* line 180 *)
| AllowListCheck    (* line 197, Step 3 *)
| DenyListCheck.    (* line 198, Step 4 *)

Definition fails (c : check) (command : string) : bool :=
  match c with
  | PrefixCheck => negb (Py.startswith command "kubectl ")
  | AllowListCheck =>
      Py.startswith command "kubectl "
      && negb (is_allowed (Py.slice_from 8 command))
  | DenyListCheck =>
      Py.startswith command "kubectl "
      && has_disallowed (Py.slice_from 8 command)
  end.

(** A reading [decode] of the reasons names, for every denied command, a
    test that this command failed. *)
Definition reason_identifies_check (decode : string -> check) : Prop :=
  forall command reason,
    classify command = Denied reason -> fails (decode reason) command = true.

(** ** The classifier in the words of the specification

    Section 4.1, Steps 3 to 5, stated with propositions instead of the
    executable string tests; compared with the code in [classify_refines]. *)
Module Spec.

(** Step 3: the body starts with one of the read patterns. *)
Definition matches_allow_list (body : string) : Prop :=
  exists pattern rest, In pattern allowed_prefixes /\ body = pattern ++ rest.

(** Step 4: a write term occurs somewhere in the body. *)
Definition occurs_in (term body : string) : Prop :=
  exists before after, body = before ++ term ++ after.

Definition hits_deny_list (body : string) : Prop :=
  exists term, In term disallowed_terms /\ occurs_in term body.

(** Step 5. *)
Definition allowed (body : string) : Prop :=
  matches_allow_list body /\ ~ hits_deny_list body.

End Spec.

(** ** Sample systems *)

(** A system where every process runs and exits with status 0. *)
Definition os_ok : executor := fun _ => Exits 0 "ok" "".

(** A system where every process exits with status 1 and a message. *)
Definition os_exit1 : executor :=
  fun _ => Exits 1 "" "error: the server doesn't have a resource type".

(** A system without a [kubectl] executable on the search path. *)
Definition os_no_kubectl : executor :=
  fun _ => FailsToLaunch "[Errno 2] No such file or directory: 'kubectl'".

(** ** The context tools

    [list_clusters] (lines 37-67), [switch_context] (lines 69-99) and
    [initialize_clients] (lines 21-32) talk to the kubernetes client
    library. The library is an external collaborator: its two functions the
    file calls are parameters of the model, and so is the text of the
    [TypeError] the interpreter raises for a subscript on a value that has
    none. *)

(** Python values: the entries of a kubeconfig as the library hands them
    over (loaded from YAML), and the dicts the context tools return. A dict
    is the list of its items in insertion order. *)
#[warnings="-register-all"]
Inductive value : Type :=
| VNone
| VBool (b : bool)
| VInt (n : Z)
| VStr (s : string)
| VList (items : list value)
| VDict (items : list (string * value)).

(** The exceptions below [Exception] that can reach the [except] clauses of
    lines 65 and 97. *)
Inductive exception : Type :=
| KeyError (key : string)
| TypeError (msg : string)
| LibraryError (msg : string).  (* raised inside the library: ConfigException, ... *)

(** [str(e)]; for a [KeyError] it is the [repr] of the key, which for the
    keys of this file is the key between single quotes. *)
Definition exception_str (e : exception) : string :=
  match e with
  | KeyError key => "'" ++ key ++ "'"
  | TypeError msg => msg
  | LibraryError msg => msg
  end.

(** A Python expression that may raise. *)
Inductive attempt (A : Type) : Type :=
| Done (a : A)
| Failed (e : exception).
Arguments Done {A} a.
Arguments Failed {A} e.

(** The first item of a dict with the given key. *)
Fixpoint dict_get (key : string) (items : list (string * value)) : option value :=
  match items with
  | [] => None
  | (k, v) :: items' => if String.eqb k key then Some v else dict_get key items'
  end.

(** The classes of API client of lines 26-30. *)
Inductive api : Type :=
| CoreV1Api
| AppsV1Api
| BatchV1Api
| NetworkingV1Api
| CustomObjectsApi.

(** The tool calls a caller can make, and what it gets back. *)
Inductive call : Type :=
| ListClusters
| SwitchContext (context : string)
| RunKubectlCommand (command : string)
| RunKubectlCommandRo (command : string).

Inductive reply : Type :=
| ReplyDict (v : value)       (* the dict of a context tool *)
| ReplyStr (s : string)       (* the string of a command tool *)
| ReplyRaised (e : exn).      (* an exception left the tool *)

(** The argument lists a call hands to [subprocess.run]: the split command
    when the command passes the checks of its tool, nothing otherwise. *)
Definition accepted_argv (c : call) : list (list string) :=
  match c with
  | ListClusters => []
  | SwitchContext _ => []
  | RunKubectlCommand command =>
      if Py.startswith command "kubectl " then [Py.split command] else []
  | RunKubectlCommandRo command =>
      match classify command with
      | Allowed => [Py.split command]
      | Denied _ => []
      end
  end.


Section Kubernetes.

(** The state of the client library (its default configuration) and of the
    kubeconfig it reads. *)
Variable K : Type.

(** [config.list_kube_config_contexts()]: the contexts and the active one. *)
Variable list_kube_config_contexts : K -> attempt (list value * value).

(** [config.load_kube_config(context=...)]: sets the default configuration
    of the library, or raises. *)
Variable load_kube_config : option string -> K -> attempt unit * K.

(** The text of the [TypeError] of [v[key]] when [v] is not a dict. *)
Variable subscript_error : value -> string.

(** [v[key]] for a string [key]. *)
Definition getitem (v : value) (key : string) : attempt value :=
  match v with
  | VDict items =>
      match dict_get key items with
      | Some x => Done x
      | None => Failed (KeyError key)
      end
  | _ => Failed (TypeError (subscript_error v))
  end.

(** An API client object: its class and the configuration it was built
    with, the library's default at that time. *)
Record ApiObject : Type := mkApi {
  api_class : api;
  api_configuration : K
}.

(** The state of the server process: the library, the five globals of lines
    15-19, the trace of the command tools (process calls and error records)
    and the records of [logger.info]. *)
Record World : Type := mkWorld {
  kube : K;
  coreV1 : option ApiObject;
  appsV1 : option ApiObject;
  batchV1 : option ApiObject;
  networkingV1 : option ApiObject;
  customObjectsApi : option ApiObject;
  w_trace : trace;
  w_info : list string
}.

Definition with_kube (k : K) (w : World) : World :=
  mkWorld k (coreV1 w) (appsV1 w) (batchV1 w) (networkingV1 w)
    (customObjectsApi w) (w_trace w) (w_info w).

Definition with_trace (tr : trace) (w : World) : World :=
  mkWorld (kube w) (coreV1 w) (appsV1 w) (batchV1 w) (networkingV1 w)
    (customObjectsApi w) tr (w_info w).

(** The five globals, in the order of line 23. *)
Definition clients (w : World) : list (option ApiObject) :=
  [coreV1 w; appsV1 w; batchV1 w; networkingV1 w; customObjectsApi w].

(** Lines 15-19 and 35: the module as imported, when line 35 does not
    raise. The globals are [None]: the import does not call
    [initialize_clients]. *)
Definition import_module (k : K) : attempt World :=
  match load_kube_config None k with
  | (Done _, k') => Done (mkWorld k' None None None None None [] [])
  | (Failed e, _) => Failed e
  end.

(** Lines 21-32: each global is set to a new client, which the library
    builds with its default configuration (the constructors take no
    argument and are taken not to raise), then one [logger.info]. *)
Definition initialize_clients (w : World) : World :=
  mkWorld (kube w)
    (Some (mkApi CoreV1Api (kube w)))
    (Some (mkApi AppsV1Api (kube w)))
    (Some (mkApi BatchV1Api (kube w)))
    (Some (mkApi NetworkingV1Api (kube w)))
    (Some (mkApi CustomObjectsApi (kube w)))
    (w_trace w)
    (w_info w ++ ["Kubernetes API clients initialized"])%list.

(** The element of the comprehension of line 63:
    [{"name": context['name'], "cluster": context['context']['cluster']}]. *)
Definition cluster_entry (context : value) : attempt value :=
  match getitem context "name" with
  | Failed e => Failed e
  | Done name =>
      match getitem context "context" with
      | Failed e => Failed e
      | Done inner =>
          match getitem inner "cluster" with
          | Failed e => Failed e
          | Done cluster => Done (VDict [("name", name); ("cluster", cluster)])
          end
      end
  end.

(** The comprehension of line 63, left to right; the first exception ends
    it. *)
Fixpoint cluster_entries (contexts : list value) : attempt (list value) :=
  match contexts with
  | [] => Done []
  | context :: contexts' =>
      match cluster_entry context with
      | Failed e => Failed e
      | Done entry =>
          match cluster_entries contexts' with
          | Failed e => Failed e
          | Done entries => Done (entry :: entries)
          end
      end
  end.

(** Lines 62-64, the body of the [try]. *)
Definition list_clusters_body (k : K) : attempt value :=
  match list_kube_config_contexts k with
  | Failed e => Failed e
  | Done (contexts, active_context) =>
      match cluster_entries contexts with
      | Failed e => Failed e
      | Done clusters =>
          match getitem active_context "name" with
          | Failed e => Failed e
          | Done name =>
              Done (VDict [("clusters", VList clusters);
                           ("active_context", name)])
          end
      end
  end.

(** Lines 61-67. *)
Definition list_clusters (w : World) : value * World :=
  match list_clusters_body (kube w) with
  | Done v => (v, w)
  | Failed e =>
      (VDict [("error", VStr (exception_str e))],
       with_trace
         (snd (logger_error ("Error listing clusters: " ++ exception_str e)
                 (w_trace w)))
         w)
  end.

(** Lines 93-99. *)
Definition switch_context (context : string) (w : World) : value * World :=
  match load_kube_config (Some context) (kube w) with
  | (Done _, k') =>
      (VDict [("message", VStr ("Switched to context: " ++ context))],
       initialize_clients (with_kube k' w))
  | (Failed e, k') =>
      (VDict [("error", VStr (exception_str e))],
       with_trace
         (snd (logger_error
                 ("Error switching context to " ++ context ++ ": "
                  ++ exception_str e)
                 (w_trace w)))
         (with_kube k' w))
  end.

(** A command tool run in the server: it reads and writes no global, its
    effects go to the trace. *)
Definition run_tool (m : M string) (w : World) : reply * World :=
  match m (w_trace w) with
  | (Return s, tr) => (ReplyStr s, with_trace tr w)
  | (Raise e, tr) => (ReplyRaised e, with_trace tr w)
  end.

Variable os : executor.

(** One tool call (lines 37, 69, 101 and 143: the four [@mcp.tool()]). *)
Definition handle (c : call) (w : World) : reply * World :=
  match c with
  | ListClusters =>
      let (v, w') := list_clusters w in (ReplyDict v, w')
  | SwitchContext context =>
      let (v, w') := switch_context context w in (ReplyDict v, w')
  | RunKubectlCommand command => run_tool (run_kubectl_command os command) w
  | RunKubectlCommandRo command => run_tool (run_kubectl_command_ro os command) w
  end.

(** A sequence of tool calls, one after the other. *)
Fixpoint serve (calls : list call) (w : World) : list reply * World :=
  match calls with
  | [] => ([], w)
  | c :: calls' =>
      let (r, w') := handle c w in
      let (rs, w'') := serve calls' w' in
      (r :: rs, w'')
  end.

(** The five globals are all [None], or all set to clients of their classes
    built with one and the same configuration. *)
Definition clients_coherent (w : World) : Prop :=
  clients w = [None; None; None; None; None]
  \/ exists k,
       clients w
       = [Some (mkApi CoreV1Api k); Some (mkApi AppsV1Api k);
          Some (mkApi BatchV1Api k); Some (mkApi NetworkingV1Api k);
          Some (mkApi CustomObjectsApi k)].

End Kubernetes.

Arguments mkApi {K} _ _.
Arguments mkWorld {K} _ _ _ _ _ _ _ _.
Arguments kube {K} _.
Arguments w_trace {K} _.
Arguments w_info {K} _.
Arguments clients {K} _.
Arguments clients_coherent {K} _.
Arguments initialize_clients {K} _.
Arguments with_trace {K} _ _.
Arguments with_kube {K} _ _.
Arguments run_tool {K} _ _.
Arguments coreV1 {K} _.
Arguments appsV1 {K} _.
Arguments batchV1 {K} _.
Arguments networkingV1 {K} _.
Arguments customObjectsApi {K} _.
Arguments import_module {K} _ _.
Arguments list_clusters_body {K} _ _ _.
Arguments list_clusters {K} _ _ _.
Arguments switch_context {K} _ _ _.
Arguments handle {K} _ _ _ _ _ _.
Arguments serve {K} _ _ _ _ _ _.

(** ** A sample kubeconfig

    Two contexts, [dev] and [prod]; the state of the library is the name of
    the context its default configuration was loaded for. *)

Definition sample_context (name cluster : string) : value :=
  VDict [("name", VStr name);
         ("context", VDict [("cluster", VStr cluster); ("user", VStr "admin")])].

Definition sample_contexts : list value :=
  [sample_context "dev" "dev-k8s"; sample_context "prod" "prod-k8s"].

Definition sample_list (k : string) : attempt (list value * value) :=
  Done (sample_contexts,
        if String.eqb k "prod" then sample_context "prod" "prod-k8s"
        else sample_context "dev" "dev-k8s").

Definition sample_load (context : option string) (k : string)
    : attempt unit * string :=
  match context with
  | None => (Done tt, k)
  | Some name =>
      if String.eqb name "dev" || String.eqb name "prod" then (Done tt, name)
      else
        (Failed (LibraryError
                   ("Invalid kube-config file. Expected object with name "
                    ++ name ++ " in kube-config/contexts list")),
         k)
  end.

Definition sample_subscript_error (v : value) : string :=
  "object is not subscriptable".

(** A kubeconfig whose second context has no [context] key. *)
Definition broken_list (k : string) : attempt (list value * value) :=
  Done ([sample_context "dev" "dev-k8s"; VDict [("name", VStr "prod")]],
        sample_context "dev" "dev-k8s").

(** The server just imported, on the sample kubeconfig with [dev] active. *)
Definition sample_world : World string :=
  mkWorld "dev" None None None None None [] [].

(** ** Facts about the string operations *)

Lemma append_assoc (a b c : string) : (a ++ b) ++ c = a ++ (b ++ c).
Proof.
  induction a as [|x a IH]; simpl; [reflexivity | now rewrite IH].
Qed.

Lemma append_empty_r (a : string) : a ++ "" = a.
Proof.
  induction a as [|x a IH]; simpl; [reflexivity | now rewrite IH].
Qed.

Lemma startswith_app (p rest : string) : Py.startswith (p ++ rest) p = true.
Proof.
  induction p as [|x p IH]; simpl; [reflexivity|].
  now rewrite Ascii.eqb_refl.
Qed.

Lemma startswith_slice (s p : string) :
  Py.startswith s p = true -> s = p ++ Py.slice_from (String.length p) s.
Proof.
  revert s; induction p as [|x p IH]; intros s H; simpl in *; [reflexivity|].
  destruct s as [|c s]; [discriminate|].
  destruct (Ascii.eqb_spec c x) as [->|]; [|discriminate].
  f_equal. now apply IH.
Qed.

(** [startswith] decides "begins with". *)
Lemma startswith_spec (s p : string) :
  Py.startswith s p = true <-> exists rest, s = p ++ rest.
Proof.
  split.
  - intros H. eexists. now apply startswith_slice.
  - intros [rest ->]. apply startswith_app.
Qed.

Lemma slice_from_app (p rest : string) :
  Py.slice_from (String.length p) (p ++ rest) = rest.
Proof.
  induction p as [|x p IH]; simpl; [reflexivity | exact IH].
Qed.

(** [contains] decides "occurs as a substring". *)
Lemma contains_spec (term s : string) :
  Py.contains term s = true <-> exists before after, s = before ++ term ++ after.
Proof.
  split.
  - induction s as [|c s IH]; simpl; intros H;
      apply orb_true_iff in H as [H|H].
    + apply startswith_spec in H as [rest E]. now exists "", rest.
    + discriminate.
    + change (Py.startswith (String c s) term = true) in H.
      apply startswith_spec in H as [rest E]. now exists "", rest.
    + destruct (IH H) as (b & a & E). exists (String c b), a.
      simpl. now rewrite E.
  - intros (before & after & ->).
    induction before as [|c b IH]; simpl.
    + destruct (term ++ after) eqn:E; simpl; rewrite <- E;
        now rewrite startswith_app.
    + rewrite IH. apply orb_true_r.
Qed.

Lemma any_true {A : Type} (f : A -> bool) (xs : list A) :
  Py.any f xs = true <-> exists x, In x xs /\ f x = true.
Proof. apply existsb_exists. Qed.

(** Step 3 of the specification is what line 197 computes. *)
Lemma is_allowed_spec (body : string) :
  is_allowed body = true <-> Spec.matches_allow_list body.
Proof.
  unfold is_allowed, Spec.matches_allow_list. rewrite any_true. split.
  - intros (p & Hin & H). apply startswith_spec in H as [rest ->].
    now exists p, rest.
  - intros (p & rest & Hin & ->). exists p. split; [exact Hin|].
    apply startswith_app.
Qed.

(** Step 4 of the specification is what line 198 computes. *)
Lemma has_disallowed_spec (body : string) :
  has_disallowed body = true <-> Spec.hits_deny_list body.
Proof.
  unfold has_disallowed, Spec.hits_deny_list, Spec.occurs_in.
  rewrite any_true. split.
  - intros (t & Hin & H). exists t. split; [exact Hin|].
    now apply contains_spec.
  - intros (t & Hin & H). exists t. split; [exact Hin|].
    now apply contains_spec.
Qed.

(** A command with the prefix is the prefix followed by its body. *)
Lemma startswith_kubectl (command : string) :
  Py.startswith command "kubectl " = true ->
  command = "kubectl " ++ Py.slice_from 8 command.
Proof. intros H. exact (startswith_slice command "kubectl " H). Qed.

(** ** Facts about [split] *)

Lemma no_space_snoc (tok : string) (c : ascii) :
  Py.no_space tok = true -> Py.isspace c = false ->
  Py.no_space (tok ++ String c "") = true.
Proof.
  intros Htok Hc. induction tok as [|x tok IH]; simpl in *.
  - now rewrite Hc.
  - apply andb_true_iff in Htok as [Hx Htok]. rewrite Hx. now apply IH.
Qed.

Lemma snoc_not_empty (tok : string) (c : ascii) : tok ++ String c "" <> "".
Proof. destruct tok; discriminate. Qed.

(** Every token is a non-empty run without whitespace. *)
Lemma split_from_tokens (s tok : string) :
  Py.no_space tok = true ->
  Forall (fun t => t <> "" /\ Py.no_space t = true) (Py.split_from tok s).
Proof.
  revert tok; induction s as [|c s IH]; intros tok Htok; simpl.
  - destruct tok; [constructor|].
    constructor; [split; [discriminate | exact Htok] | constructor].
  - destruct (Py.isspace c) eqn:Hc.
    + destruct tok.
      * now apply IH.
      * constructor; [split; [discriminate | exact Htok] | now apply IH].
    + apply IH. now apply no_space_snoc.
Qed.

(** The tokens, put end to end, are the characters of the input that are not
    whitespace: nothing is dropped but whitespace and nothing is reordered. *)
Lemma split_from_concat (s tok : string) :
  String.concat "" (Py.split_from tok s) = tok ++ Py.strip_spaces s.
Proof.
  revert tok; induction s as [|c s IH]; intros tok; simpl.
  - destruct tok; simpl; [reflexivity | now rewrite append_empty_r].
  - destruct (Py.isspace c) eqn:Hc.
    + destruct tok as [|x tok].
      * apply IH.
      * specialize (IH ""). simpl in IH.
        destruct (Py.split_from "" s) as [|t ts] eqn:E.
        -- simpl in *. rewrite <- IH. now rewrite append_empty_r.
        -- change (String.concat "" (String x tok :: t :: ts))
             with (String x tok ++ "" ++ String.concat "" (t :: ts)).
           now rewrite IH.
    + rewrite IH, append_assoc. reflexivity.
Qed.

(** The first token of a command with the prefix is the executable name. *)
Lemma split_kubectl (rest : string) :
  Py.split ("kubectl " ++ rest) = "kubectl" :: Py.split rest.
Proof. reflexivity. Qed.

(** ** Facts about the effects *)

Lemma spawned_app (tr1 tr2 : trace) :
  spawned (tr1 ++ tr2)%list = (spawned tr1 ++ spawned tr2)%list.
Proof.
  induction tr1 as [|[argv|msg] tr1 IH]; simpl; [reflexivity | | exact IH].
  now rewrite IH.
Qed.

(** The three ways a forwarded command ends. *)
Lemma forward_exit_zero (os : executor) (command : string) (tr : trace)
    (out err : string) :
  os (Py.split command) = Exits 0 out err ->
  forward os command tr
  = (Return out, (tr ++ [EvSubprocess (Py.split command)])%list).
Proof.
  intros H. unfold forward, try_except_CalledProcessError, bind, subprocess_run.
  now rewrite H.
Qed.

Lemma forward_exit_nonzero (os : executor) (command : string) (tr : trace)
    (rc : Z) (out err : string) :
  os (Py.split command) = Exits rc out err -> rc <> 0%Z ->
  forward os command tr
  = (Return ("Error: " ++ err),
     ((tr ++ [EvSubprocess (Py.split command)])
         ++ [EvLogError ("Error running kubectl command: " ++ err)])%list).
Proof.
  intros H Hrc. unfold forward, try_except_CalledProcessError, bind, subprocess_run.
  rewrite H. apply Z.eqb_neq in Hrc. now rewrite Hrc.
Qed.

Lemma forward_launch_failure (os : executor) (command : string) (tr : trace)
    (msg : string) :
  os (Py.split command) = FailsToLaunch msg ->
  forward os command tr
  = (Raise (OSError msg), (tr ++ [EvSubprocess (Py.split command)])%list).
Proof.
  intros H. unfold forward, try_except_CalledProcessError, bind, subprocess_run.
  now rewrite H.
Qed.

(** A forwarded command makes exactly one call of the executor, with the
    command split on whitespace, however the call ends. *)
Lemma spawned_forward (os : executor) (command : string) (tr : trace) :
  spawned (snd (forward os command tr))
  = (spawned tr ++ [Py.split command])%list.
Proof.
  destruct (os (Py.split command)) as [rc out err|msg] eqn:H.
  - destruct (Z.eq_dec rc 0) as [->|Hrc].
    + rewrite (forward_exit_zero _ _ _ _ _ H). simpl. now rewrite spawned_app.
    + rewrite (forward_exit_nonzero _ _ _ _ _ _ H Hrc). simpl.
      rewrite !spawned_app. simpl. now rewrite app_nil_r.
  - rewrite (forward_launch_failure _ _ _ _ H). simpl. now rewrite spawned_app.
Qed.

(** The read-only tool is its gate followed by the forwarding. *)
Lemma run_kubectl_command_ro_gate (os : executor) (command : string) (tr : trace) :
  run_kubectl_command_ro os command tr
  = match classify command with
    | Allowed => forward os command tr
    | Denied reason => (Return reason, tr)
    end.
Proof.
  unfold run_kubectl_command_ro, classify.
  destruct (negb (Py.startswith command "kubectl ")); [reflexivity|].
  cbv zeta.
  destruct (negb (is_allowed (Py.slice_from 8 command))
            || has_disallowed (Py.slice_from 8 command)); reflexivity.
Qed.

(** The unrestricted tool tests the prefix and nothing else. *)
Lemma run_kubectl_command_gate (os : executor) (command : string) (tr : trace) :
  run_kubectl_command os command tr
  = if Py.startswith command "kubectl " then forward os command tr
    else (Return MSG_PREFIX, tr).
Proof.
  unfold run_kubectl_command.
  destruct (Py.startswith command "kubectl "); reflexivity.
Qed.

Lemma classify_denied (command : string) :
  Py.startswith command "kubectl " = true ->
  is_allowed (Py.slice_from 8 command) = false
  \/ has_disallowed (Py.slice_from 8 command) = true ->
  classify command = Denied MSG_READ_ONLY.
Proof.
  intros Hp H. unfold classify. cbv zeta. rewrite Hp.
  change (negb true) with false. cbv iota.
  destruct H as [H|H]; rewrite H; [reflexivity | now rewrite orb_true_r].
Qed.

Lemma classify_allowed (command : string) :
  Py.startswith command "kubectl " = true ->
  is_allowed (Py.slice_from 8 command) = true ->
  has_disallowed (Py.slice_from 8 command) = false ->
  classify command = Allowed.
Proof.
  intros Hp Ha Hd. unfold classify. cbv zeta. now rewrite Hp, Ha, Hd.
Qed.

Lemma MSG_distinct : MSG_PREFIX <> MSG_READ_ONLY.
Proof. discriminate. Qed.

(** A denial returns the reason and leaves the trace alone. *)
Lemma run_kubectl_command_ro_denied
    (os : executor) (command reason : string) (tr : trace) :
  classify command = Denied reason ->
  run_kubectl_command_ro os command tr = (Return reason, tr).
Proof. intros Hc. now rewrite run_kubectl_command_ro_gate, Hc. Qed.

(** A command let through is forwarded. *)
Lemma run_kubectl_command_ro_allowed
    (os : executor) (command : string) (tr : trace) :
  classify command = Allowed ->
  run_kubectl_command_ro os command tr = forward os command tr.
Proof. intros Hc. now rewrite run_kubectl_command_ro_gate, Hc. Qed.

(** ** The read-only tool *)

(** C1. A command that has the prefix [kubectl ] but fails the allow-list
    test or contains a disallowed term is answered by
    [run_kubectl_command_ro] with the denial string, and the call has no
    effect at all: the trace is left as it was, so [subprocess.run] is not
    called and no process is spawned. *)
Theorem ro_denied_no_side_effect
    (os : executor) (command : string) (tr : trace) :
  Py.startswith command "kubectl " = true ->
  is_allowed (Py.slice_from 8 command) = false
  \/ has_disallowed (Py.slice_from 8 command) = true ->
  classify command = Denied MSG_READ_ONLY
  /\ run_kubectl_command_ro os command tr = (Return MSG_READ_ONLY, tr).
Proof.
  intros Hp H. pose proof (classify_denied command Hp H) as Hc.
  split; [exact Hc | now apply run_kubectl_command_ro_denied].
Qed.

Lemma ro_denied_no_side_effect_witness :
  Py.startswith "kubectl delete pod nginx" "kubectl " = true
  /\ (is_allowed (Py.slice_from 8 "kubectl delete pod nginx") = false
      \/ has_disallowed (Py.slice_from 8 "kubectl delete pod nginx") = true)
  /\ classify "kubectl delete pod nginx" = Denied MSG_READ_ONLY
  /\ run_kubectl_command_ro os_ok "kubectl delete pod nginx" []
     = (Return MSG_READ_ONLY, []).
Proof.
  split; [reflexivity|]. split; [left; reflexivity|].
  apply (ro_denied_no_side_effect os_ok "kubectl delete pod nginx" []);
    [reflexivity | left; reflexivity].
Defined.

(** C2. For a command with the prefix, the gate of the read-only tool lets
    the command through exactly when its body starts with one of the allowed
    patterns and no disallowed term occurs anywhere in the body, as Steps 3
    to 5 of the specification say; in every other case it denies, and the
    tool does what its gate decides. *)
Theorem classify_refines (os : executor) (command : string) (tr : trace) :
  Py.startswith command "kubectl " = true ->
  (classify command = Allowed <-> Spec.allowed (Py.slice_from 8 command))
  /\ (classify command = Denied MSG_READ_ONLY
      <-> ~ Spec.allowed (Py.slice_from 8 command))
  /\ run_kubectl_command_ro os command tr
     = match classify command with
       | Allowed => forward os command tr
       | Denied reason => (Return reason, tr)
       end.
Proof.
  intros Hp. unfold Spec.allowed.
  rewrite <- is_allowed_spec, <- has_disallowed_spec.
  split; [|split; [|apply run_kubectl_command_ro_gate]].
  - destruct (is_allowed (Py.slice_from 8 command)) eqn:Ha.
    + destruct (has_disallowed (Py.slice_from 8 command)) eqn:Hd.
      * rewrite (classify_denied command Hp (or_intror Hd)).
        split; [discriminate | intros [_ H]; now elim H].
      * rewrite (classify_allowed command Hp Ha Hd).
        split; [intros _; split; [reflexivity | discriminate] | reflexivity].
    + rewrite (classify_denied command Hp (or_introl Ha)).
      split; [discriminate | intros [H _]; discriminate].
  - destruct (is_allowed (Py.slice_from 8 command)) eqn:Ha.
    + destruct (has_disallowed (Py.slice_from 8 command)) eqn:Hd.
      * rewrite (classify_denied command Hp (or_intror Hd)).
        split; [intros _ [_ H]; now elim H | reflexivity].
      * rewrite (classify_allowed command Hp Ha Hd).
        split; [discriminate | intros H; elim H; split; [reflexivity | discriminate]].
    + rewrite (classify_denied command Hp (or_introl Ha)).
      split; [intros _ [H _]; discriminate | reflexivity].
Qed.

Lemma classify_refines_witness :
  Py.startswith "kubectl get pods -n default" "kubectl " = true
  /\ (classify "kubectl get pods -n default" = Allowed
      <-> Spec.allowed (Py.slice_from 8 "kubectl get pods -n default"))
  /\ (classify "kubectl get pods -n default" = Denied MSG_READ_ONLY
      <-> ~ Spec.allowed (Py.slice_from 8 "kubectl get pods -n default"))
  /\ run_kubectl_command_ro os_ok "kubectl get pods -n default" []
     = match classify "kubectl get pods -n default" with
       | Allowed => forward os_ok "kubectl get pods -n default" []
       | Denied reason => (Return reason, [])
       end.
Proof.
  split; [reflexivity|].
  apply (classify_refines os_ok "kubectl get pods -n default" []).
  reflexivity.
Defined.

(** C3. A command whose body contains a term of the disallowed list as a
    substring, at any place after the prefix, is denied by the read-only
    tool and the call has no effect (no process is spawned), whatever the
    body starts with: the deny-list scan wins over a match of the allow
    list. *)
Theorem ro_deny_list_precedence
    (os : executor) (term before after : string) (tr : trace) :
  In term disallowed_terms ->
  classify ("kubectl " ++ before ++ term ++ after) = Denied MSG_READ_ONLY
  /\ run_kubectl_command_ro os ("kubectl " ++ before ++ term ++ after) tr
     = (Return MSG_READ_ONLY, tr).
Proof.
  intros Hin.
  assert (Hc : classify ("kubectl " ++ before ++ term ++ after)
               = Denied MSG_READ_ONLY).
  { apply classify_denied.
    - apply (startswith_app "kubectl ").
    - right. change 8 with (String.length "kubectl "). rewrite slice_from_app.
      apply has_disallowed_spec. exists term. split; [exact Hin|].
      now exists before, after. }
  split; [exact Hc | now apply run_kubectl_command_ro_denied].
Qed.

Lemma ro_deny_list_precedence_witness :
  (In "delete" disallowed_terms
   /\ is_allowed "get pods; kubectl delete pod x" = true
   /\ classify "kubectl get pods; kubectl delete pod x" = Denied MSG_READ_ONLY
   /\ run_kubectl_command_ro os_ok "kubectl get pods; kubectl delete pod x" []
      = (Return MSG_READ_ONLY, []))
  /\ (In "label --overwrite" disallowed_terms
      /\ classify "kubectl label --overwrite pod x foo=bar"
         = Denied MSG_READ_ONLY
      /\ run_kubectl_command_ro os_ok "kubectl label --overwrite pod x foo=bar" []
         = (Return MSG_READ_ONLY, [])).
Proof.
  split.
  - split; [simpl; tauto|]. split; [reflexivity|].
    apply (ro_deny_list_precedence os_ok "delete" "get pods; kubectl " " pod x" []).
    simpl; tauto.
  - split; [simpl; tauto|].
    apply (ro_deny_list_precedence os_ok "label --overwrite" "" " pod x foo=bar" []).
    simpl; tauto.
Defined.

(** C4. A command with the prefix whose body starts with an allowed read
    pattern and contains no disallowed term (such as [kubectl get pods],
    [kubectl describe deployment nginx], [kubectl config view] or
    [kubectl version]) is let through by the read-only tool, and the call
    makes exactly one call of the external executor, with the command split
    on whitespace: one process is spawned for it. *)
Theorem ro_read_command_spawns_once
    (os : executor) (command : string) (tr : trace) :
  Py.startswith command "kubectl " = true ->
  is_allowed (Py.slice_from 8 command) = true ->
  has_disallowed (Py.slice_from 8 command) = false ->
  classify command = Allowed
  /\ run_kubectl_command_ro os command tr = forward os command tr
  /\ spawned (snd (run_kubectl_command_ro os command tr))
     = (spawned tr ++ [Py.split command])%list.
Proof.
  intros Hp Ha Hd. pose proof (classify_allowed command Hp Ha Hd) as Hc.
  split; [exact Hc|].
  rewrite (run_kubectl_command_ro_allowed os command tr Hc).
  split; [reflexivity | apply spawned_forward].
Qed.

Lemma ro_read_command_spawns_once_witness :
  (classify "kubectl get pods" = Allowed
   /\ run_kubectl_command_ro os_ok "kubectl get pods" []
      = forward os_ok "kubectl get pods" []
   /\ spawned (snd (run_kubectl_command_ro os_ok "kubectl get pods" []))
      = [["kubectl"; "get"; "pods"]])
  /\ (classify "kubectl describe deployment nginx" = Allowed
      /\ run_kubectl_command_ro os_exit1 "kubectl describe deployment nginx" []
         = forward os_exit1 "kubectl describe deployment nginx" []
      /\ spawned (snd (run_kubectl_command_ro os_exit1
                         "kubectl describe deployment nginx" []))
         = [["kubectl"; "describe"; "deployment"; "nginx"]])
  /\ (classify "kubectl config view" = Allowed
      /\ run_kubectl_command_ro os_no_kubectl "kubectl config view" []
         = forward os_no_kubectl "kubectl config view" []
      /\ spawned (snd (run_kubectl_command_ro os_no_kubectl
                         "kubectl config view" []))
         = [["kubectl"; "config"; "view"]])
  /\ (classify "kubectl version" = Allowed
      /\ run_kubectl_command_ro os_ok "kubectl version" []
         = forward os_ok "kubectl version" []
      /\ spawned (snd (run_kubectl_command_ro os_ok "kubectl version" []))
         = [["kubectl"; "version"]]).
Proof.
  split; [|split; [|split]].
  - apply (ro_read_command_spawns_once os_ok "kubectl get pods" []);
      reflexivity.
  - apply (ro_read_command_spawns_once os_exit1
             "kubectl describe deployment nginx" []); reflexivity.
  - apply (ro_read_command_spawns_once os_no_kubectl "kubectl config view" []);
      reflexivity.
  - apply (ro_read_command_spawns_once os_ok "kubectl version" []);
      reflexivity.
Defined.

(** C5. The allow-list patterns of two words match literally, space
    included: [kubectl config get-contexts] is let through and
    [kubectl config delete-context prod] is denied, and a body that starts
    with the word [config] matches the allow list only when [ view] or
    [ get-contexts] follows it, so the word [config] alone never matches. *)
Theorem config_patterns_match_literally :
  classify "kubectl config get-contexts" = Allowed
  /\ classify "kubectl config delete-context prod" = Denied MSG_READ_ONLY
  /\ is_allowed "config delete-context prod" = false
  /\ is_allowed "config" = false
  /\ (forall rest : string,
        is_allowed ("config" ++ rest)
        = Py.startswith rest " view" || Py.startswith rest " get-contexts")
  /\ (forall (os : executor) (tr : trace),
        run_kubectl_command_ro os "kubectl config get-contexts" tr
        = forward os "kubectl config get-contexts" tr)
  /\ (forall (os : executor) (tr : trace),
        run_kubectl_command_ro os "kubectl config delete-context prod" tr
        = (Return MSG_READ_ONLY, tr)).
Proof.
  split; [reflexivity|]. split; [reflexivity|].
  split; [reflexivity|]. split; [reflexivity|].
  split; [|split].
  - intros rest. unfold is_allowed, Py.any, allowed_prefixes. simpl.
    now rewrite orb_false_r.
  - intros os tr. now apply run_kubectl_command_ro_allowed.
  - intros os tr. now apply run_kubectl_command_ro_denied.
Qed.

(** ** Both tools *)

(** C6. A command that does not start with [kubectl ] is answered by both
    tools with the fixed string of lines 129 and 181, and the call has no
    effect: no process is spawned. *)
Theorem missing_prefix_rejected
    (os : executor) (command : string) (tr : trace) :
  Py.startswith command "kubectl " = false ->
  run_kubectl_command os command tr = (Return MSG_PREFIX, tr)
  /\ run_kubectl_command_ro os command tr = (Return MSG_PREFIX, tr).
Proof.
  intros Hp. split.
  - now rewrite run_kubectl_command_gate, Hp.
  - apply run_kubectl_command_ro_denied. unfold classify. now rewrite Hp.
Qed.

Lemma missing_prefix_rejected_witness :
  (Py.startswith "kubectl" "kubectl " = false
   /\ run_kubectl_command os_ok "kubectl" [] = (Return MSG_PREFIX, [])
   /\ run_kubectl_command_ro os_ok "kubectl" [] = (Return MSG_PREFIX, []))
  /\ (Py.startswith "rm -rf /" "kubectl " = false
      /\ run_kubectl_command os_ok "rm -rf /" [] = (Return MSG_PREFIX, [])
      /\ run_kubectl_command_ro os_ok "rm -rf /" [] = (Return MSG_PREFIX, [])).
Proof.
  split; (split; [reflexivity|]).
  - apply (missing_prefix_rejected os_ok "kubectl" []). reflexivity.
  - apply (missing_prefix_rejected os_ok "rm -rf /" []). reflexivity.
Defined.

(** ** The unrestricted tool *)

(** C7. A command that starts with [kubectl ] is forwarded by
    [run_kubectl_command] to the external executor whatever its body is: the
    tool does what [forward] does, without any test of the body, and makes
    one call of the executor whose argument list is the command split on
    whitespace. That list starts with [kubectl], its elements are non-empty
    and free of whitespace, and together they are the characters of the
    command that are not whitespace. When the process exits with status 0 the
    tool returns its standard output. *)
Theorem unrestricted_forwards
    (os : executor) (command : string) (tr : trace) :
  Py.startswith command "kubectl " = true ->
  run_kubectl_command os command tr = forward os command tr
  /\ spawned (snd (run_kubectl_command os command tr))
     = (spawned tr ++ [Py.split command])%list
  /\ (exists args, Py.split command = "kubectl" :: args)
  /\ Forall (fun t => t <> "" /\ Py.no_space t = true) (Py.split command)
  /\ String.concat "" (Py.split command) = Py.strip_spaces command
  /\ (forall out err,
        os (Py.split command) = Exits 0 out err ->
        run_kubectl_command os command tr
        = (Return out, (tr ++ [EvSubprocess (Py.split command)])%list)).
Proof.
  intros Hp.
  assert (Hrun : run_kubectl_command os command tr = forward os command tr)
    by now rewrite run_kubectl_command_gate, Hp.
  rewrite Hrun. split; [reflexivity|].
  split; [apply spawned_forward|].
  split.
  { rewrite (startswith_kubectl command Hp), split_kubectl. now eexists. }
  split; [now apply split_from_tokens|].
  split; [apply (split_from_concat command "")|].
  intros out err H. now apply forward_exit_zero with (err := err).
Qed.

Lemma unrestricted_forwards_witness :
  Py.startswith "kubectl delete pod nginx" "kubectl " = true
  /\ run_kubectl_command os_ok "kubectl delete pod nginx" []
     = forward os_ok "kubectl delete pod nginx" []
  /\ spawned (snd (run_kubectl_command os_ok "kubectl delete pod nginx" []))
     = [["kubectl"; "delete"; "pod"; "nginx"]]
  /\ (exists args, Py.split "kubectl delete pod nginx" = "kubectl" :: args)
  /\ Forall (fun t => t <> "" /\ Py.no_space t = true)
       (Py.split "kubectl delete pod nginx")
  /\ String.concat "" (Py.split "kubectl delete pod nginx")
     = Py.strip_spaces "kubectl delete pod nginx"
  /\ (forall out err,
        os_ok (Py.split "kubectl delete pod nginx") = Exits 0 out err ->
        run_kubectl_command os_ok "kubectl delete pod nginx" []
        = (Return out, [EvSubprocess ["kubectl"; "delete"; "pod"; "nginx"]])).
Proof.
  split; [reflexivity|].
  apply (unrestricted_forwards os_ok "kubectl delete pod nginx" []).
  reflexivity.
Defined.

(** ** Failures of the external process *)

(** A process that exits with a non-zero status is reported by both tools:
    the call returns [Error: ] followed by the captured standard error, after
    one record in the log. *)
Lemma nonzero_exit_reported
    (os : executor) (command : string) (tr : trace)
    (rc : Z) (out err : string) :
  os (Py.split command) = Exits rc out err -> rc <> 0%Z ->
  (Py.startswith command "kubectl " = true ->
   fst (run_kubectl_command os command tr) = Return ("Error: " ++ err))
  /\ (classify command = Allowed ->
      fst (run_kubectl_command_ro os command tr) = Return ("Error: " ++ err)).
Proof.
  intros H Hrc. split.
  - intros Hp. rewrite run_kubectl_command_gate, Hp.
    now rewrite (forward_exit_nonzero _ _ _ _ _ _ H Hrc).
  - intros Hc. rewrite (run_kubectl_command_ro_allowed _ _ _ Hc).
    now rewrite (forward_exit_nonzero _ _ _ _ _ _ H Hrc).
Qed.

(** C8. On a system where [kubectl] cannot be started, the command
    [kubectl get pods] passes the checks of both tools and is forwarded, and
    the [OSError] of [subprocess.run] leaves both tools unhandled: the
    [except] clause of lines 139 and 211 names [CalledProcessError] only, so
    no error string is returned to the caller. *)
Theorem launch_failure_escapes :
  classify "kubectl get pods" = Allowed
  /\ run_kubectl_command os_no_kubectl "kubectl get pods" []
     = (Raise (OSError "[Errno 2] No such file or directory: 'kubectl'"),
        [EvSubprocess ["kubectl"; "get"; "pods"]])
  /\ run_kubectl_command_ro os_no_kubectl "kubectl get pods" []
     = (Raise (OSError "[Errno 2] No such file or directory: 'kubectl'"),
        [EvSubprocess ["kubectl"; "get"; "pods"]])
  /\ (forall s : string,
        fst (run_kubectl_command_ro os_no_kubectl "kubectl get pods" [])
        <> Return s).
Proof.
  split; [reflexivity|]. split; [reflexivity|]. split; [reflexivity|].
  intros s. discriminate.
Qed.

(** ** The reason of a denial *)

(** C9, as the claim states it, fails: [kubectl logs nginx] fails the
    allow-list test only and [kubectl get pods; kubectl delete pod x] fails
    the deny-list test only, and the read-only tool answers both with the
    same string, so no reading of the reason names the test that failed. *)
Lemma reason_does_not_identify_check :
  classify "kubectl logs nginx" = Denied MSG_READ_ONLY
  /\ classify "kubectl get pods; kubectl delete pod x" = Denied MSG_READ_ONLY
  /\ fails AllowListCheck "kubectl logs nginx" = true
  /\ fails DenyListCheck "kubectl logs nginx" = false
  /\ fails AllowListCheck "kubectl get pods; kubectl delete pod x" = false
  /\ fails DenyListCheck "kubectl get pods; kubectl delete pod x" = true
  /\ run_kubectl_command_ro os_ok "kubectl logs nginx" []
     = run_kubectl_command_ro os_ok "kubectl get pods; kubectl delete pod x" []
  /\ ~ (exists decode : string -> check, reason_identifies_check decode).
Proof.
  do 7 (split; [reflexivity|]).
  intros [decode H].
  pose proof (H "kubectl logs nginx" MSG_READ_ONLY eq_refl) as Ha.
  pose proof (H "kubectl get pods; kubectl delete pod x" MSG_READ_ONLY eq_refl)
    as Hb.
  destruct (decode MSG_READ_ONLY); discriminate.
Qed.

(** C9, amended. When [run_kubectl_command_ro] rejects a command it returns
    the reason and has no effect, and the reason tells a missing prefix from
    a denial by the policy and nothing more: a missing prefix gives the
    string of line 181, and a mismatch of the allow list, a hit of the deny
    list, or both, give the one fixed string of line 201, which differs from
    the first. *)
Theorem reason_identifies_stage
    (os : executor) (command reason : string) (tr : trace) :
  classify command = Denied reason ->
  run_kubectl_command_ro os command tr = (Return reason, tr)
  /\ ((reason = MSG_PREFIX /\ fails PrefixCheck command = true)
      \/ (reason = MSG_READ_ONLY
          /\ fails PrefixCheck command = false
          /\ (fails AllowListCheck command = true
              \/ fails DenyListCheck command = true)))
  /\ MSG_PREFIX <> MSG_READ_ONLY.
Proof.
  intros Hc. split; [now apply run_kubectl_command_ro_denied|].
  split; [|exact MSG_distinct].
  unfold classify in Hc. cbv zeta in Hc. unfold fails.
  destruct (Py.startswith command "kubectl ").
  - right.
    destruct (is_allowed (Py.slice_from 8 command)).
    + destruct (has_disallowed (Py.slice_from 8 command)); [|discriminate].
      injection Hc as <-. auto.
    + injection Hc as <-. auto.
  - left. injection Hc as <-. auto.
Qed.

Lemma reason_identifies_stage_witness :
  classify "kubectl logs nginx" = Denied MSG_READ_ONLY
  /\ run_kubectl_command_ro os_ok "kubectl logs nginx" []
     = (Return MSG_READ_ONLY, [])
  /\ ((MSG_READ_ONLY = MSG_PREFIX
       /\ fails PrefixCheck "kubectl logs nginx" = true)
      \/ (MSG_READ_ONLY = MSG_READ_ONLY
          /\ fails PrefixCheck "kubectl logs nginx" = false
          /\ (fails AllowListCheck "kubectl logs nginx" = true
              \/ fails DenyListCheck "kubectl logs nginx" = true)))
  /\ MSG_PREFIX <> MSG_READ_ONLY.
Proof.
  split; [reflexivity|].
  apply (reason_identifies_stage os_ok "kubectl logs nginx" MSG_READ_ONLY []).
  reflexivity.
Defined.

(** ** The allow list and word boundaries *)

(** C10. The allow-list test asks for no word boundary after the pattern: a
    command [kubectl ] + pattern + rest, for any allowed pattern and any
    rest, with no disallowed term in pattern + rest (such as
    [kubectl gettysburg] or [kubectl versions --foo]) is let through by the
    read-only tool, which makes one call of the executor for it, with the
    command split on whitespace. *)
Theorem allow_list_no_token_boundary
    (os : executor) (pattern rest : string) (tr : trace) :
  In pattern allowed_prefixes ->
  has_disallowed (pattern ++ rest) = false ->
  classify ("kubectl " ++ pattern ++ rest) = Allowed
  /\ run_kubectl_command_ro os ("kubectl " ++ pattern ++ rest) tr
     = forward os ("kubectl " ++ pattern ++ rest) tr
  /\ spawned (snd (run_kubectl_command_ro os ("kubectl " ++ pattern ++ rest) tr))
     = (spawned tr ++ ["kubectl" :: Py.split (pattern ++ rest)])%list.
Proof.
  intros Hin Hd.
  assert (Hc : classify ("kubectl " ++ pattern ++ rest) = Allowed).
  { apply classify_allowed.
    - apply (startswith_app "kubectl ").
    - change 8 with (String.length "kubectl "). rewrite slice_from_app.
      apply is_allowed_spec. now exists pattern, rest.
    - change 8 with (String.length "kubectl "). now rewrite slice_from_app. }
  split; [exact Hc|].
  rewrite (run_kubectl_command_ro_allowed os _ tr Hc).
  split; [reflexivity|].
  rewrite spawned_forward. now rewrite split_kubectl.
Qed.

Lemma allow_list_no_token_boundary_witness :
  (In "get" allowed_prefixes
   /\ has_disallowed "gettysburg" = false
   /\ classify "kubectl gettysburg" = Allowed
   /\ run_kubectl_command_ro os_ok "kubectl gettysburg" []
      = forward os_ok "kubectl gettysburg" []
   /\ spawned (snd (run_kubectl_command_ro os_ok "kubectl gettysburg" []))
      = [["kubectl"; "gettysburg"]])
  /\ (In "version" allowed_prefixes
      /\ has_disallowed "versions --foo" = false
      /\ classify "kubectl versions --foo" = Allowed
      /\ run_kubectl_command_ro os_ok "kubectl versions --foo" []
         = forward os_ok "kubectl versions --foo" []
      /\ spawned (snd (run_kubectl_command_ro os_ok "kubectl versions --foo" []))
         = [["kubectl"; "versions"; "--foo"]]).
Proof.
  split; (split; [simpl; tauto|]); (split; [reflexivity|]).
  - apply (allow_list_no_token_boundary os_ok "get" "tysburg" []);
      [simpl; tauto | reflexivity].
  - apply (allow_list_no_token_boundary os_ok "version" "s --foo" []);
      [simpl; tauto | reflexivity].
Defined.

(** ** More facts about [split] and the gate *)

(** The token being read is the start of the first token of the result. *)
Lemma split_from_head (s tok : string) :
  tok <> "" ->
  exists suffix args, Py.split_from tok s = (tok ++ suffix) :: args.
Proof.
  revert tok; induction s as [|c s IH]; intros tok Htok; simpl.
  - destruct tok; [contradiction|]. exists "", []. now rewrite append_empty_r.
  - destruct (Py.isspace c).
    + destruct tok; [contradiction|].
      exists "", (Py.split_from "" s). now rewrite append_empty_r.
    + destruct (IH (tok ++ String c "") (snoc_not_empty tok c))
        as (suffix & args & ->).
      exists (String c suffix), args. now rewrite append_assoc.
Qed.

(** Every token is a piece of the input. *)
Lemma split_from_substring (s tok0 tok : string) :
  In tok (Py.split_from tok0 s) ->
  exists before after, tok0 ++ s = before ++ tok ++ after.
Proof.
  revert tok0; induction s as [|c s IH]; intros tok0 Hin; simpl in Hin.
  - destruct tok0; [contradiction|].
    destruct Hin as [<-|[]]. exists "", "". simpl. now rewrite !append_empty_r.
  - destruct (Py.isspace c).
    + destruct tok0 as [|x tok0].
      * destruct (IH "" Hin) as (b & a & E). simpl in E.
        exists (String c b), a. simpl. now rewrite E.
      * destruct Hin as [<-|Hin].
        -- now exists "", (String c s).
        -- destruct (IH "" Hin) as (b & a & E). simpl in E.
           exists (String x tok0 ++ String c b), a.
           rewrite E, append_assoc. reflexivity.
    + destruct (IH _ Hin) as (b & a & E).
      exists b, a. rewrite <- E, append_assoc. reflexivity.
Qed.

(** A term found in a piece of a string is found in the string. *)
Lemma contains_substring (term piece s before after : string) :
  s = before ++ piece ++ after ->
  Py.contains term piece = true -> Py.contains term s = true.
Proof.
  intros -> H. apply contains_spec in H as (b & a & ->).
  apply contains_spec. exists (before ++ b), (a ++ after).
  now rewrite !append_assoc.
Qed.

(** What an [Allowed] verdict says about the command. *)
Lemma classify_allowed_inv (command : string) :
  classify command = Allowed ->
  Py.startswith command "kubectl " = true
  /\ is_allowed (Py.slice_from 8 command) = true
  /\ has_disallowed (Py.slice_from 8 command) = false.
Proof.
  unfold classify. cbv zeta.
  destruct (Py.startswith command "kubectl "); [|discriminate].
  destruct (is_allowed (Py.slice_from 8 command)); [|discriminate].
  destruct (has_disallowed (Py.slice_from 8 command)); [discriminate|].
  auto.
Qed.

(** The verdicts are the three of the source. *)
Lemma classify_cases (command : string) :
  (classify command = Denied MSG_PREFIX
   /\ Py.startswith command "kubectl " = false)
  \/ (classify command = Denied MSG_READ_ONLY
      /\ Py.startswith command "kubectl " = true)
  \/ (classify command = Allowed
      /\ Py.startswith command "kubectl " = true).
Proof.
  unfold classify. cbv zeta.
  destruct (Py.startswith command "kubectl "); [|now left].
  right.
  destruct (negb (is_allowed (Py.slice_from 8 command))
            || has_disallowed (Py.slice_from 8 command)); auto.
Qed.

(** The forwarding depends on the command through its tokens only. *)
Lemma forward_split (os : executor) (c1 c2 : string) (tr : trace) :
  Py.split c1 = Py.split c2 -> forward os c1 tr = forward os c2 tr.
Proof. intros H. unfold forward. now rewrite H. Qed.


(** No allowed pattern starts with a whitespace character. *)
Lemma is_allowed_space (c : ascii) (rest : string) :
  Py.isspace c = true -> is_allowed (String c rest) = false.
Proof.
  intros Hc. unfold is_allowed, Py.any, allowed_prefixes. simpl.
  repeat match goal with
  | |- context [Ascii.eqb c ?x] =>
      destruct (Ascii.eqb_spec c x) as [->|_]; [discriminate Hc|]
  end.
  reflexivity.
Qed.

(** The word [kubectl] contains no disallowed term. *)
Lemma kubectl_free_of_disallowed (term : string) :
  In term disallowed_terms -> Py.contains term "kubectl" = false.
Proof.
  unfold disallowed_terms. simpl.
  intros H. repeat (destruct H as [<-|H]; [reflexivity|]). contradiction.
Qed.

(** ** The two command tools side by side *)

(** X1. The read-only tool is the unrestricted tool with one more refusal:
    on every command it either does exactly what [run_kubectl_command] does
    (same result, same effects) or, for a command with the prefix, returns
    the string of line 201 and has no effect. *)
Theorem read_only_refines_unrestricted
    (os : executor) (command : string) (tr : trace) :
  run_kubectl_command_ro os command tr = run_kubectl_command os command tr
  \/ (Py.startswith command "kubectl " = true
      /\ run_kubectl_command_ro os command tr = (Return MSG_READ_ONLY, tr)).
Proof.
  rewrite run_kubectl_command_ro_gate, run_kubectl_command_gate.
  destruct (classify_cases command) as [[Hc Hp]|[[Hc Hp]|[Hc Hp]]];
    rewrite Hc, Hp; auto.
Qed.


(** X3. The gate reads the raw text and the executor reads the tokens: a
    whitespace character right after the prefix makes the read-only tool
    deny the command, although the argument list is the one of the command
    without that character, which the unrestricted tool treats alike. *)
Theorem ro_denies_space_after_prefix
    (os : executor) (c : ascii) (rest : string) (tr : trace) :
  Py.isspace c = true ->
  run_kubectl_command_ro os ("kubectl " ++ String c rest) tr
  = (Return MSG_READ_ONLY, tr)
  /\ Py.split ("kubectl " ++ String c rest) = Py.split ("kubectl " ++ rest)
  /\ run_kubectl_command os ("kubectl " ++ String c rest) tr
     = run_kubectl_command os ("kubectl " ++ rest) tr.
Proof.
  intros Hc.
  assert (Hsplit : Py.split ("kubectl " ++ String c rest)
                   = Py.split ("kubectl " ++ rest)).
  { rewrite !split_kubectl. unfold Py.split. simpl. now rewrite Hc. }
  split; [|split; [exact Hsplit|]].
  - apply run_kubectl_command_ro_denied. apply classify_denied.
    + apply (startswith_app "kubectl ").
    + left. change 8 with (String.length "kubectl ").
      rewrite slice_from_app. now apply is_allowed_space.
  - rewrite !run_kubectl_command_gate.
    rewrite !(startswith_app "kubectl "). now apply forward_split.
Qed.

Lemma ro_denies_space_after_prefix_witness :
  Py.isspace " " = true
  /\ run_kubectl_command_ro os_ok "kubectl  get pods" []
     = (Return MSG_READ_ONLY, [])
  /\ Py.split "kubectl  get pods" = Py.split "kubectl get pods"
  /\ run_kubectl_command os_ok "kubectl  get pods" []
     = run_kubectl_command os_ok "kubectl get pods" [].
Proof.
  split; [reflexivity|].
  apply (ro_denies_space_after_prefix os_ok " " "get pods" []). reflexivity.
Defined.

(** ** What the read-only tool passes to kubectl *)

(** X4. The argument list of a command the read-only tool lets through is
    [kubectl] followed by the words of an allowed pattern, the last word
    possibly run on by more characters, and then the other arguments. *)
Theorem ro_argv_starts_with_read_words
    (os : executor) (command : string) (tr : trace) :
  classify command = Allowed ->
  exists pattern suffix args,
    In pattern allowed_prefixes
    /\ spawned (snd (run_kubectl_command_ro os command tr))
       = (spawned tr ++ [Py.split command])%list
    /\ Py.split command
       = "kubectl"
         :: (removelast (Py.split pattern)
               ++ (last (Py.split pattern) "" ++ suffix)%string :: args)%list.
Proof.
  intros Hc. destruct (classify_allowed_inv command Hc) as (Hp & Ha & _).
  apply is_allowed_spec in Ha as (pattern & rest & Hin & Hbody).
  assert (Hargv : exists suffix args,
             Py.split (pattern ++ rest)
             = (removelast (Py.split pattern)
                  ++ (last (Py.split pattern) "" ++ suffix)%string :: args)%list).
  { unfold allowed_prefixes in Hin. simpl in Hin.
    destruct Hin as [<-|[<-|[<-|[<-|[<-|[<-|[<-|[<-|[]]]]]]]]].
    - destruct (split_from_head rest "get") as (sfx & args & E);
        [discriminate|]. exists sfx, args. exact E.
    - destruct (split_from_head rest "describe") as (sfx & args & E);
        [discriminate|]. exists sfx, args. exact E.
    - destruct (split_from_head rest "explain") as (sfx & args & E);
        [discriminate|]. exists sfx, args. exact E.
    - destruct (split_from_head rest "view") as (sfx & args & E);
        [discriminate|]. exists sfx, args.
      change (Py.split ("config view" ++ rest))
        with ("config" :: Py.split_from "view" rest). now rewrite E.
    - destruct (split_from_head rest "get-contexts") as (sfx & args & E);
        [discriminate|]. exists sfx, args.
      change (Py.split ("config get-contexts" ++ rest))
        with ("config" :: Py.split_from "get-contexts" rest). now rewrite E.
    - destruct (split_from_head rest "version") as (sfx & args & E);
        [discriminate|]. exists sfx, args. exact E.
    - destruct (split_from_head rest "api-resources") as (sfx & args & E);
        [discriminate|]. exists sfx, args. exact E.
    - destruct (split_from_head rest "cluster-info") as (sfx & args & E);
        [discriminate|]. exists sfx, args. exact E. }
  destruct Hargv as (suffix & args & Hargv).
  exists pattern, suffix, args. split; [exact Hin|]. split.
  - rewrite (run_kubectl_command_ro_allowed os command tr Hc).
    apply spawned_forward.
  - rewrite (startswith_kubectl command Hp), Hbody, split_kubectl.
    now rewrite Hargv.
Qed.

Lemma ro_argv_starts_with_read_words_witness :
  classify "kubectl config viewer --raw" = Allowed
  /\ exists pattern suffix args,
       In pattern allowed_prefixes
       /\ spawned (snd (run_kubectl_command_ro os_ok
                          "kubectl config viewer --raw" []))
          = [["kubectl"; "config"; "viewer"; "--raw"]]
       /\ Py.split "kubectl config viewer --raw"
          = "kubectl"
            :: (removelast (Py.split pattern)
                  ++ (last (Py.split pattern) "" ++ suffix)%string :: args)%list.
Proof.
  split; [reflexivity|].
  apply (ro_argv_starts_with_read_words os_ok "kubectl config viewer --raw" []).
  reflexivity.
Defined.

(** X5. No argument of a process the read-only tool spawns contains a term
    of the disallowed list: whatever the command, each element of the
    argument list handed to [subprocess.run] is free of every one of them. *)
Theorem ro_argv_free_of_disallowed_terms
    (os : executor) (command : string) (argv : list string)
    (tok term : string) :
  In argv (spawned (snd (run_kubectl_command_ro os command []))) ->
  In tok argv ->
  In term disallowed_terms ->
  Py.contains term tok = false.
Proof.
  intros Hargv Htok Hterm.
  rewrite run_kubectl_command_ro_gate in Hargv.
  destruct (classify command) as [|reason] eqn:Hc; [|contradiction].
  rewrite spawned_forward in Hargv. simpl in Hargv.
  destruct Hargv as [<-|[]].
  destruct (classify_allowed_inv command Hc) as (Hp & _ & Hd).
  rewrite (startswith_kubectl command Hp), split_kubectl in Htok.
  destruct Htok as [<-|Htok]; [now apply kubectl_free_of_disallowed|].
  destruct (Py.contains term tok) eqn:Hcontains; [|reflexivity].
  apply split_from_substring in Htok as (before & after & E). simpl in E.
  assert (Hhit : has_disallowed (Py.slice_from 8 command) = true).
  { apply any_true. exists term. split; [exact Hterm|].
    now apply (contains_substring term tok _ before after). }
  rewrite Hhit in Hd. discriminate.
Qed.

Lemma ro_argv_free_of_disallowed_terms_witness :
  In ["kubectl"; "get"; "pods"; "-n"; "default"]
     (spawned (snd (run_kubectl_command_ro os_ok
                      "kubectl get pods -n default" [])))
  /\ In "pods" ["kubectl"; "get"; "pods"; "-n"; "default"]
  /\ In "delete" disallowed_terms
  /\ Py.contains "delete" "pods" = false.
Proof.
  assert (H1 : In ["kubectl"; "get"; "pods"; "-n"; "default"]
                 (spawned (snd (run_kubectl_command_ro os_ok
                                  "kubectl get pods -n default" []))))
    by (left; reflexivity).
  assert (H2 : In "pods" ["kubectl"; "get"; "pods"; "-n"; "default"])
    by (simpl; tauto).
  assert (H3 : In "delete" disallowed_terms) by (simpl; tauto).
  split; [exact H1|]. split; [exact H2|]. split; [exact H3|].
  exact (ro_argv_free_of_disallowed_terms os_ok "kubectl get pods -n default"
           _ _ _ H1 H2 H3).
Defined.

(** ** The context tools *)

Section ContextTools.

Variable K : Type.
Variable list_contexts : K -> attempt (list value * value).
Variable load_config : option string -> K -> attempt unit * K.
Variable sub_error : value -> string.

(** The comprehension keeps the number of the contexts. *)
Lemma cluster_entries_length (contexts entries : list value) :
  cluster_entries sub_error contexts = Done entries ->
  List.length entries = List.length contexts.
Proof.
  revert entries; induction contexts as [|c cs IH]; intros entries H;
    simpl in H.
  - now injection H as <-.
  - destruct (cluster_entry sub_error c); [|discriminate].
    destruct (cluster_entries sub_error cs) as [es|]; [|discriminate].
    injection H as <-. simpl. now rewrite (IH es).
Qed.

(** The comprehension goes through when every element does. *)
Lemma cluster_entries_all (contexts entries : list value) :
  Forall2 (fun context entry => cluster_entry sub_error context = Done entry)
    contexts entries ->
  cluster_entries sub_error contexts = Done entries.
Proof.
  induction 1 as [|c e cs es Hc _ IH]; simpl; [reflexivity|].
  now rewrite Hc, IH.
Qed.

(** The comprehension ends at the first element that raises. *)
Lemma cluster_entries_first_failure
    (good : list value) (bad : value) (rest : list value) (e : exception) :
  Forall (fun c => exists entry, cluster_entry sub_error c = Done entry) good ->
  cluster_entry sub_error bad = Failed e ->
  cluster_entries sub_error (good ++ bad :: rest)%list = Failed e.
Proof.
  intros Hgood Hbad. induction Hgood as [|c cs [entry Hc] _ IH]; simpl.
  - now rewrite Hbad.
  - now rewrite Hc, IH.
Qed.

(** X6. When the library hands over the contexts and the active one, every
    context is a dict with a [name] and a [context] that is a dict with a
    [cluster], and the active context has a [name], [list_clusters] returns
    one [{name, cluster}] entry per context, in the order of the kubeconfig,
    with the name of the active context, and changes nothing. *)
Theorem list_clusters_lists_every_context
    (w : World K) (contexts entries : list value) (active name : value) :
  list_contexts (kube w) = Done (contexts, active) ->
  Forall2
    (fun context entry =>
       exists n inner c,
         getitem sub_error context "name" = Done n
         /\ getitem sub_error context "context" = Done inner
         /\ getitem sub_error inner "cluster" = Done c
         /\ entry = VDict [("name", n); ("cluster", c)])
    contexts entries ->
  getitem sub_error active "name" = Done name ->
  list_clusters list_contexts sub_error w
  = (VDict [("clusters", VList entries); ("active_context", name)], w).
Proof.
  intros Hlist Hall Hname.
  assert (Hentries : cluster_entries sub_error contexts = Done entries).
  { apply cluster_entries_all.
    clear Hlist.
    induction Hall as [|c e cs es (n & inner & cl & Hn & Hi & Hc & ->) _ IH].
    - constructor.
    - constructor; [|exact IH].
      unfold cluster_entry. now rewrite Hn, Hi, Hc. }
  unfold list_clusters, list_clusters_body.
  now rewrite Hlist, Hentries, Hname.
Qed.

(** X7. One entry of the kubeconfig that cannot be read fails the whole
    listing: when the contexts before it are fine and it raises [e],
    [list_clusters] returns [{"error": str(e)}] with no [clusters] at all,
    after one error record, whatever comes after that entry. *)
Theorem list_clusters_fails_as_a_whole
    (w : World K) (good : list value) (bad : value) (rest : list value)
    (active : value) (e : exception) :
  list_contexts (kube w) = Done ((good ++ bad :: rest)%list, active) ->
  Forall (fun c => exists entry, cluster_entry sub_error c = Done entry) good ->
  cluster_entry sub_error bad = Failed e ->
  list_clusters list_contexts sub_error w
  = (VDict [("error", VStr (exception_str e))],
     with_trace
       (w_trace w
          ++ [EvLogError ("Error listing clusters: " ++ exception_str e)])%list
       w).
Proof.
  intros Hlist Hgood Hbad.
  unfold list_clusters, list_clusters_body.
  now rewrite Hlist, (cluster_entries_first_failure good bad rest e Hgood Hbad).
Qed.

(** X8. [list_clusters] never raises and answers in one of two shapes: a
    dict with [clusters] and [active_context], with as many clusters as the
    library gave contexts and no effect at all; or a dict with [error] alone,
    after exactly one error record. In both cases it calls no process and
    leaves the five clients and the library as they were. *)
Theorem list_clusters_reply_shape (w : World K) :
  ((exists contexts active clusters name,
      list_contexts (kube w) = Done (contexts, active)
      /\ List.length clusters = List.length contexts
      /\ fst (list_clusters list_contexts sub_error w)
         = VDict [("clusters", VList clusters); ("active_context", name)]
      /\ snd (list_clusters list_contexts sub_error w) = w)
   \/ (exists e,
         fst (list_clusters list_contexts sub_error w)
         = VDict [("error", VStr (exception_str e))]
         /\ w_trace (snd (list_clusters list_contexts sub_error w))
            = (w_trace w
                 ++ [EvLogError ("Error listing clusters: " ++ exception_str e)])%list))
  /\ spawned (w_trace (snd (list_clusters list_contexts sub_error w)))
     = spawned (w_trace w)
  /\ clients (snd (list_clusters list_contexts sub_error w)) = clients w
  /\ kube (snd (list_clusters list_contexts sub_error w)) = kube w.
Proof.
  unfold list_clusters, list_clusters_body.
  destruct (list_contexts (kube w)) as [[contexts active]|e] eqn:Hlist.
  - destruct (cluster_entries sub_error contexts) as [clusters|e] eqn:Hentries.
    + destruct (getitem sub_error active "name") as [name|e] eqn:Hname.
      * split; [left|auto].
        exists contexts, active, clusters, name.
        split; [reflexivity|].
        split; [now apply cluster_entries_length|]. auto.
      * split; [right; now exists e|]. simpl.
        rewrite spawned_app. simpl. now rewrite app_nil_r.
    + split; [right; now exists e|]. simpl.
      rewrite spawned_app. simpl. now rewrite app_nil_r.
  - split; [right; now exists e|]. simpl.
    rewrite spawned_app. simpl. now rewrite app_nil_r.
Qed.


End ContextTools.

Lemma list_clusters_lists_every_context_witness :
  sample_list (kube sample_world)
  = Done (sample_contexts, sample_context "dev" "dev-k8s")
  /\ Forall2
       (fun context entry =>
          exists n inner c,
            getitem sample_subscript_error context "name" = Done n
            /\ getitem sample_subscript_error context "context" = Done inner
            /\ getitem sample_subscript_error inner "cluster" = Done c
            /\ entry = VDict [("name", n); ("cluster", c)])
       sample_contexts
       [VDict [("name", VStr "dev"); ("cluster", VStr "dev-k8s")];
        VDict [("name", VStr "prod"); ("cluster", VStr "prod-k8s")]]
  /\ getitem sample_subscript_error (sample_context "dev" "dev-k8s") "name"
     = Done (VStr "dev")
  /\ list_clusters sample_list sample_subscript_error sample_world
     = (VDict [("clusters",
                VList [VDict [("name", VStr "dev"); ("cluster", VStr "dev-k8s")];
                       VDict [("name", VStr "prod"); ("cluster", VStr "prod-k8s")]]);
               ("active_context", VStr "dev")],
        sample_world).
Proof.
  assert (H2 : Forall2
       (fun context entry =>
          exists n inner c,
            getitem sample_subscript_error context "name" = Done n
            /\ getitem sample_subscript_error context "context" = Done inner
            /\ getitem sample_subscript_error inner "cluster" = Done c
            /\ entry = VDict [("name", n); ("cluster", c)])
       sample_contexts
       [VDict [("name", VStr "dev"); ("cluster", VStr "dev-k8s")];
        VDict [("name", VStr "prod"); ("cluster", VStr "prod-k8s")]]).
  { constructor; [|constructor; [|constructor]].
    - exists (VStr "dev"),
        (VDict [("cluster", VStr "dev-k8s"); ("user", VStr "admin")]),
        (VStr "dev-k8s"). repeat split.
    - exists (VStr "prod"),
        (VDict [("cluster", VStr "prod-k8s"); ("user", VStr "admin")]),
        (VStr "prod-k8s"). repeat split. }
  split; [reflexivity|]. split; [exact H2|]. split; [reflexivity|].
  exact (list_clusters_lists_every_context string sample_list
           sample_subscript_error sample_world sample_contexts _ _ _
           eq_refl H2 eq_refl).
Defined.

Lemma list_clusters_fails_as_a_whole_witness :
  broken_list (kube sample_world)
  = Done (([sample_context "dev" "dev-k8s"]
             ++ VDict [("name", VStr "prod")] :: [])%list,
          sample_context "dev" "dev-k8s")
  /\ Forall (fun c => exists entry,
               cluster_entry sample_subscript_error c = Done entry)
       [sample_context "dev" "dev-k8s"]
  /\ cluster_entry sample_subscript_error (VDict [("name", VStr "prod")])
     = Failed (KeyError "context")
  /\ list_clusters broken_list sample_subscript_error sample_world
     = (VDict [("error", VStr "'context'")],
        with_trace [EvLogError "Error listing clusters: 'context'"]
          sample_world).
Proof.
  assert (H2 : Forall (fun c => exists entry,
                         cluster_entry sample_subscript_error c = Done entry)
                 [sample_context "dev" "dev-k8s"]).
  { constructor; [|constructor]. eexists. reflexivity. }
  split; [reflexivity|]. split; [exact H2|]. split; [reflexivity|].
  exact (list_clusters_fails_as_a_whole string broken_list
           sample_subscript_error sample_world
           [sample_context "dev" "dev-k8s"] (VDict [("name", VStr "prod")]) []
           (sample_context "dev" "dev-k8s") (KeyError "context")
           eq_refl H2 eq_refl).
Defined.

(** ** The four tools in sequence *)

Section Session.

Variable K : Type.
Variable list_contexts : K -> attempt (list value * value).
Variable load_config : option string -> K -> attempt unit * K.
Variable sub_error : value -> string.
Variable os : executor.

(** The process calls one tool call adds to the trace. *)
Lemma spawned_handle (c : call) (w : World K) :
  spawned (w_trace (snd (handle list_contexts load_config sub_error os c w)))
  = (spawned (w_trace w) ++ accepted_argv c)%list.
Proof.
  destruct c as [|context|command|command]; unfold handle, accepted_argv.
  - unfold list_clusters.
    destruct (list_clusters_body list_contexts sub_error (kube w)); simpl.
    + now rewrite app_nil_r.
    + now rewrite spawned_app.
  - unfold switch_context.
    destruct (load_config (Some context) (kube w)) as [[[]|e] k']; simpl.
    + now rewrite app_nil_r.
    + now rewrite spawned_app.
  - unfold run_tool. rewrite run_kubectl_command_gate.
    destruct (Py.startswith command "kubectl ").
    + pose proof (spawned_forward os command (w_trace w)) as H.
      destruct (forward os command (w_trace w)) as [[s|e] tr]; exact H.
    + cbn. now rewrite app_nil_r.
  - unfold run_tool. rewrite run_kubectl_command_ro_gate.
    destruct (classify command).
    + pose proof (spawned_forward os command (w_trace w)) as H.
      destruct (forward os command (w_trace w)) as [[s|e] tr]; exact H.
    + cbn. now rewrite app_nil_r.
Qed.

Lemma spawned_serve (calls : list call) (w : World K) :
  spawned (w_trace (snd (serve list_contexts load_config sub_error os calls w)))
  = (spawned (w_trace w) ++ flat_map accepted_argv calls)%list.
Proof.
  revert w; induction calls as [|c calls IH]; intros w; simpl.
  - now rewrite app_nil_r.
  - pose proof (spawned_handle c w) as Hc.
    destruct (handle list_contexts load_config sub_error os c w) as [r w'].
    pose proof (IH w') as Hcalls.
    destruct (serve list_contexts load_config sub_error os calls w')
      as [rs w''].
    simpl in *. now rewrite Hcalls, Hc, app_assoc.
Qed.

(** A command tool leaves the globals and the info records alone. *)
Lemma run_tool_globals (m : M string) (w : World K) :
  clients (snd (run_tool m w)) = clients w
  /\ w_info (snd (run_tool m w)) = w_info w.
Proof.
  unfold run_tool. destruct (m (w_trace w)) as [[s|e] tr]; now split.
Qed.

(** What one tool call does to the five globals. *)
Lemma clients_handle (c : call) (w : World K) :
  (clients (snd (handle list_contexts load_config sub_error os c w)) = clients w
   /\ w_info (snd (handle list_contexts load_config sub_error os c w))
      = w_info w)
  \/ (exists context k',
        c = SwitchContext context
        /\ fst (load_config (Some context) (kube w)) = Done tt
        /\ clients (snd (handle list_contexts load_config sub_error os c w))
           = [Some (mkApi CoreV1Api k'); Some (mkApi AppsV1Api k');
              Some (mkApi BatchV1Api k'); Some (mkApi NetworkingV1Api k');
              Some (mkApi CustomObjectsApi k')]).
Proof.
  destruct c as [|context|command|command]; unfold handle.
  - left. unfold list_clusters.
    destruct (list_clusters_body list_contexts sub_error (kube w)); now split.
  - unfold switch_context.
    destruct (load_config (Some context) (kube w)) as [[[]|e] k'] eqn:Hload;
      simpl.
    + right. exists context, k'. rewrite Hload. now repeat split.
    + left. now split.
  - left. apply run_tool_globals.
  - left. apply run_tool_globals.
Qed.

Lemma coherent_handle (c : call) (w : World K) :
  clients_coherent w ->
  clients_coherent (snd (handle list_contexts load_config sub_error os c w)).
Proof.
  intros Hw. unfold clients_coherent.
  destruct (clients_handle c w) as [[-> _]|(context & k' & _ & _ & ->)].
  - exact Hw.
  - right. now exists k'.
Qed.

Lemma coherent_serve (calls : list call) (w : World K) :
  clients_coherent w ->
  clients_coherent (snd (serve list_contexts load_config sub_error os calls w)).
Proof.
  revert w; induction calls as [|c calls IH]; intros w Hw; simpl; [exact Hw|].
  pose proof (coherent_handle c w Hw) as Hc.
  destruct (handle list_contexts load_config sub_error os c w) as [r w'].
  pose proof (IH w' Hc) as Hcalls.
  destruct (serve list_contexts load_config sub_error os calls w') as [rs w''].
  exact Hcalls.
Qed.


(** X10. From the import of the module on, whatever tools are called and in
    whatever order, the five global clients are all [None] or all set, each
    of its class, and all built with one and the same configuration. *)
Theorem clients_stay_coherent (k : K) (w0 : World K) (calls : list call) :
  import_module load_config k = Done w0 ->
  clients_coherent
    (snd (serve list_contexts load_config sub_error os calls w0)).
Proof.
  intros Himport. apply coherent_serve.
  unfold import_module in Himport.
  destruct (load_config None k) as [[u|e] k']; [|discriminate].
  injection Himport as <-. now left.
Qed.

(** X11. Only a [switch_context] that succeeds changes the five global
    clients: over a sequence of calls in which every [switch_context] names
    a context the library refuses, the clients and the info records stay
    what they were, whatever [list_clusters] and the command tools do. *)
Theorem clients_change_only_on_successful_switch
    (calls : list call) (w : World K) :
  (forall context k,
      In (SwitchContext context) calls ->
      fst (load_config (Some context) k) <> Done tt) ->
  clients (snd (serve list_contexts load_config sub_error os calls w))
  = clients w
  /\ w_info (snd (serve list_contexts load_config sub_error os calls w))
     = w_info w.
Proof.
  revert w; induction calls as [|c calls IH]; intros w Hfail; simpl;
    [now split|].
  assert (Hc : clients (snd (handle list_contexts load_config sub_error os c w))
               = clients w
               /\ w_info (snd (handle list_contexts load_config sub_error os c w))
                  = w_info w).
  { destruct (clients_handle c w) as [H|(context & k' & -> & Hload & _)];
      [exact H|].
    exfalso. apply (Hfail context (kube w)); [now left | exact Hload]. }
  destruct (handle list_contexts load_config sub_error os c w) as [r w'].
  assert (Hcalls := IH w' (fun context k Hin => Hfail context k (or_intror Hin))).
  destruct (serve list_contexts load_config sub_error os calls w') as [rs w''].
  simpl in *. destruct Hc as [Hc1 Hc2], Hcalls as [H1 H2].
  split; congruence.
Qed.

(** X12. Over any sequence of tool calls, the processes the server calls are
    exactly the commands that pass the checks of their tool, split on
    whitespace, in the order of the calls: the context tools call none, a
    rejected command calls none, and an earlier [switch_context] changes
    nothing of the argument list of a later command. *)
Theorem serve_spawns_the_accepted_commands
    (calls : list call) (w : World K) :
  spawned (w_trace (snd (serve list_contexts load_config sub_error os calls w)))
  = (spawned (w_trace w) ++ flat_map accepted_argv calls)%list.
Proof. apply spawned_serve. Qed.


End Session.

Lemma clients_stay_coherent_witness :
  import_module sample_load "dev" = Done sample_world
  /\ clients
       (snd (serve sample_list sample_load sample_subscript_error os_ok
               [SwitchContext "prod"; ListClusters; SwitchContext "staging";
                RunKubectlCommandRo "kubectl get pods"]
               sample_world))
     = [Some (mkApi CoreV1Api "prod"); Some (mkApi AppsV1Api "prod");
        Some (mkApi BatchV1Api "prod"); Some (mkApi NetworkingV1Api "prod");
        Some (mkApi CustomObjectsApi "prod")]
  /\ clients_coherent
       (snd (serve sample_list sample_load sample_subscript_error os_ok
               [SwitchContext "prod"; ListClusters; SwitchContext "staging";
                RunKubectlCommandRo "kubectl get pods"]
               sample_world)).
Proof.
  split; [reflexivity|]. split; [reflexivity|].
  exact (clients_stay_coherent string sample_list sample_load
           sample_subscript_error os_ok "dev" sample_world _ eq_refl).
Defined.

Lemma clients_change_only_on_successful_switch_witness :
  (forall context k,
      In (SwitchContext context)
        [ListClusters; SwitchContext "staging";
         RunKubectlCommandRo "kubectl get pods"] ->
      fst (sample_load (Some context) k) <> Done tt)
  /\ clients
       (snd (serve sample_list sample_load sample_subscript_error os_ok
               [ListClusters; SwitchContext "staging";
                RunKubectlCommandRo "kubectl get pods"]
               sample_world))
     = [None; None; None; None; None]
  /\ w_info
       (snd (serve sample_list sample_load sample_subscript_error os_ok
               [ListClusters; SwitchContext "staging";
                RunKubectlCommandRo "kubectl get pods"]
               sample_world))
     = [].
Proof.
  assert (H : forall context k,
             In (SwitchContext context)
               [ListClusters; SwitchContext "staging";
                RunKubectlCommandRo "kubectl get pods"] ->
             fst (sample_load (Some context) k) <> Done tt).
  { intros context k [Hin|[Hin|[Hin|[]]]]; try discriminate Hin.
    injection Hin as <-. discriminate. }
  split; [exact H|].
  exact (clients_change_only_on_successful_switch string sample_list
           sample_load sample_subscript_error os_ok _ sample_world H).
Defined.


(** ** A process that fails *)

(** X14. When the process of a command with the prefix exits with a non-zero
    status, the unrestricted tool returns [Error: ] followed by the captured
    standard error, after the one process call and one error record with
    the same text; the standard output of the process is dropped. The
    read-only tool does the same, unless it denied the command. *)
Theorem nonzero_exit_is_returned_and_logged
    (os : executor) (command : string) (tr : trace)
    (rc : Z) (out err : string) :
  Py.startswith command "kubectl " = true ->
  os (Py.split command) = Exits rc out err ->
  rc <> 0%Z ->
  run_kubectl_command os command tr
  = (Return ("Error: " ++ err),
     (tr ++ [EvSubprocess (Py.split command);
             EvLogError ("Error running kubectl command: " ++ err)])%list)
  /\ (run_kubectl_command_ro os command tr
      = (Return ("Error: " ++ err),
         (tr ++ [EvSubprocess (Py.split command);
                 EvLogError ("Error running kubectl command: " ++ err)])%list)
      \/ run_kubectl_command_ro os command tr = (Return MSG_READ_ONLY, tr)).
Proof.
  intros Hp Hos Hrc.
  assert (Hf : forward os command tr
               = (Return ("Error: " ++ err),
                  (tr ++ [EvSubprocess (Py.split command);
                          EvLogError ("Error running kubectl command: " ++ err)])%list)).
  { rewrite (forward_exit_nonzero _ _ _ _ _ _ Hos Hrc).
    now rewrite <- app_assoc. }
  rewrite run_kubectl_command_gate, Hp, run_kubectl_command_ro_gate.
  split; [exact Hf|].
  destruct (classify_cases command) as [[Hc Hp']|[[Hc _]|[Hc _]]]; rewrite Hc.
  - congruence.
  - now right.
  - now left.
Qed.

Lemma nonzero_exit_is_returned_and_logged_witness :
  Py.startswith "kubectl get widgets" "kubectl " = true
  /\ os_exit1 (Py.split "kubectl get widgets")
     = Exits 1 "" "error: the server doesn't have a resource type"
  /\ 1%Z <> 0%Z
  /\ run_kubectl_command os_exit1 "kubectl get widgets" []
     = (Return "Error: error: the server doesn't have a resource type",
        [EvSubprocess ["kubectl"; "get"; "widgets"];
         EvLogError
           "Error running kubectl command: error: the server doesn't have a resource type"])
  /\ (run_kubectl_command_ro os_exit1 "kubectl get widgets" []
      = (Return "Error: error: the server doesn't have a resource type",
         [EvSubprocess ["kubectl"; "get"; "widgets"];
          EvLogError
            "Error running kubectl command: error: the server doesn't have a resource type"])
      \/ run_kubectl_command_ro os_exit1 "kubectl get widgets" []
         = (Return MSG_READ_ONLY, [])).
Proof.
  assert (H3 : 1%Z <> 0%Z) by discriminate.
  split; [reflexivity|]. split; [reflexivity|]. split; [exact H3|].
  exact (nonzero_exit_is_returned_and_logged os_exit1 "kubectl get widgets" []
           1 "" "error: the server doesn't have a resource type"
           eq_refl eq_refl H3).
Defined.
